(** * http-utils: request helpers over axios with redux lifecycle reporting

    A shallow embedding of [app/src/util/http-utils.js]: the error handler
    [handleError], the private dispatcher [httpRequest] and the four verb
    wrappers [post], [put], [get] and [del].  JavaScript values are a small
    inductive universe, function bodies run in a trace-and-completion monad
    (normal completion, [return], [throw]) and promises are values that are
    already settled, since every function here awaits a single call.  The
    [dispatch] function is the caller's: it is a parameter of every function,
    as in the source, and may return or throw. *)

From Stdlib Require Import List String ZArith Bool Lia DecimalString.
Import ListNotations.
Open Scope string_scope.
Open Scope list_scope.
Set Warnings "-register-all".

(** ** JavaScript values *)

Module Js.

(** The values that flow through the module.  [VNum] holds the integer-valued
    numbers, [VNaN] the one number that is neither; objects are property lists
    in the order of the literal that built them. *)
Inductive JsVal : Type :=
| VUndefined
| VNull
| VBool (b : bool)
| VNum (n : Z)
| VNaN
| VStr (s : string)
| VArr (items : list JsVal)
| VObj (fields : list (string * JsVal)).

(** ToBoolean: the falsy values are undefined, null, false, 0, NaN and the
    empty string; every object is truthy. *)
Definition truthy (v : JsVal) : bool :=
  match v with
  | VUndefined | VNull | VNaN => false
  | VBool b => b
  | VNum n => negb (Z.eqb n 0)
  | VStr s => negb (String.eqb s "")
  | VArr _ | VObj _ => true
  end.

(** [a || b] *)
Definition js_or (a b : JsVal) : JsVal := if truthy a then a else b.

(** Own property of an object literal; [None] when there is none. *)
Fixpoint own (k : string) (fields : list (string * JsVal)) : option JsVal :=
  match fields with
  | [] => None
  | (k', v) :: rest => if String.eqb k k' then Some v else own k rest
  end.

Definition own_of (k : string) (v : JsVal) : option JsVal :=
  match v with
  | VObj fields => own k fields
  | _ => None
  end.

(** ToString, as a template literal applies it.  How a number prints is the
    engine's business (digits, or exponent form from 10^21 on): it is the
    parameter [number_toString]. *)
Fixpoint to_string (number_toString : Z -> string) (v : JsVal) : string :=
  match v with
  | VUndefined => "undefined"
  | VNull => "null"
  | VBool true => "true"
  | VBool false => "false"
  | VNum n => number_toString n
  | VNaN => "NaN"
  | VStr s => s
  | VArr items =>
      String.concat ","
        (map (fun x => match x with
                       | VUndefined | VNull => ""
                       | _ => to_string number_toString x
                       end) items)
  | VObj _ => "[object Object]"
  end.

(** [array.push(x)] *)
Definition push (array : list JsVal) (x : JsVal) : list JsVal :=
  (array ++ [x])%list.

(** Default parameter value: [param = dflt] applies when the argument is
    undefined. *)
Definition default_param (arg dflt : JsVal) : JsVal :=
  match arg with
  | VUndefined => dflt
  | _ => arg
  end.

(** The engine's TypeError object, as far as property reads can tell. *)
Definition TypeError (message : string) : JsVal :=
  VObj [("name", VStr "TypeError"); ("message", VStr message)].

End Js.
Export Js.

(** ** Promises, effects and the completion monad *)

(** A promise, observed once settled. *)
Inductive Promise : Type :=
| Resolved (value : JsVal)
| Rejected (reason : JsVal).

(** Modelled from the spec: [redux-constants] is not among the sources; the
    verbs are the four tags GET, POST, PUT and DELETE, each naming the axios
    method the request is sent with. *)
Inductive Verb : Type := GET | POST | PUT | DELETE.

Definition verb_eqb (a b : Verb) : bool :=
  match a, b with
  | GET, GET | POST, POST | PUT, PUT | DELETE, DELETE => true
  | _, _ => false
  end.

(** Modelled from the spec: the lifecycle statuses of [redux-constants] are
    the strings the dispatched actions show, 'PENDING', 'SUCCESS', 'ERROR'. *)
Definition PENDING : JsVal := VStr "PENDING".
Definition SUCCESS : JsVal := VStr "SUCCESS".
Definition ERROR : JsVal := VStr "ERROR".

(** The response object axios resolves with. *)
Record Response : Type := { resp_data : JsVal; resp_status : Z }.

(** How one axios call settles: with a response, or with whatever was thrown. *)
Inductive Settled : Type :=
| Fulfilled (response : Response)
| Failed (err : JsVal).

(** The collaborators the module imports. *)
Record Env : Type := {
  API_URL : string;                       (* getApiUrl(), read at module load *)
  getEnvironment : string;                (* getEnvironment() *)
  getCookie : string -> JsVal;            (* getCookie(name) *)
  axios : Verb -> list JsVal -> Settled;  (* axios[verb](...args), settled *)
  number_toString : Z -> string           (* the engine's Number to String *)
}.

(** What the outside world sees, in order. *)
Inductive Effect : Type :=
| Dispatch (action : JsVal)
| ConsoleError (arg : JsVal)
| AxiosCall (verb : Verb) (args : list JsVal).

Definition Trace : Type := list Effect.

(** How a block of statements ends. *)
Inductive Completion (A : Type) : Type :=
| Normal (a : A)
| Return (p : Promise)
| Throw (e : JsVal).
Arguments Normal {A} a.
Arguments Return {A} p.
Arguments Throw {A} e.

Definition M (A : Type) : Type := Trace -> Completion A * Trace.

Definition ret {A} (a : A) : M A := fun tr => (Normal a, tr).

Definition bind {A B} (m : M A) (k : A -> M B) : M B :=
  fun tr =>
    match m tr with
    | (Normal a, tr') => k a tr'
    | (Return p, tr') => (Return p, tr')
    | (Throw e, tr') => (Throw e, tr')
    end.

Declare Scope js_scope.
Delimit Scope js_scope with js.
Notation "x <- m ;; k" := (bind m (fun x => k))
  (at level 61, m at next level, right associativity) : js_scope.
Notation "m ;; k" := (bind m (fun _ => k))
  (at level 61, right associativity) : js_scope.
Open Scope js_scope.

Definition emit (e : Effect) : M unit := fun tr => (Normal tt, (tr ++ [e])%list).

(** [throw e] *)
Definition throw {A} (e : JsVal) : M A := fun tr => (Throw e, tr).

(** [return p] out of the enclosing function. *)
Definition return_ {A} (p : Promise) : M A := fun tr => (Return p, tr).

(** [try { body } catch (err) { handler }]: only a throw reaches the handler;
    a [return] inside the block leaves the function. *)
Definition try_catch {A} (body : M A) (handler : JsVal -> M A) : M A :=
  fun tr =>
    match body tr with
    | (Throw e, tr') => handler e tr'
    | r => r
    end.

(** An async function: its promise takes up whatever the body returns,
    resolves with undefined when the body falls off its end and rejects with
    what the body throws. *)
Definition async (body : M unit) : M Promise :=
  fun tr =>
    match body tr with
    | (Normal _, tr') => (Normal (Resolved VUndefined), tr')
    | (Return p, tr') => (Normal p, tr')
    | (Throw e, tr') => (Normal (Rejected e), tr')
    end.

(** [await call]: the value the promise resolves with, or a throw of its
    rejection reason. *)
Definition await (call : M Promise) : M JsVal :=
  p <- call ;;
  match p with
  | Resolved v => ret v
  | Rejected e => throw e
  end.

(** [await axios[verb](...args)] *)
Definition await_axios (env : Env) (verb : Verb) (args : list JsVal) : M Response :=
  emit (AxiosCall verb args) ;;
  match axios env verb args with
  | Fulfilled response => ret response
  | Failed err => throw err
  end.

(** [v.k]: throws on undefined and null, reads the own property of an object,
    and is undefined on the other primitives for the keys read here. *)
Definition get_prop (v : JsVal) (k : string) : M JsVal :=
  match v with
  | VUndefined => throw (TypeError "Cannot read properties of undefined")
  | VNull => throw (TypeError "Cannot read properties of null")
  | VObj fields =>
      ret (match own k fields with Some x => x | None => VUndefined end)
  | _ => ret VUndefined
  end.

(** The caller's [dispatch] function.  Handed an action after the effects so
    far, it returns ([None]) or throws a value ([Some e]). *)
Definition Sink : Type := Trace -> JsVal -> option JsVal.

(** [dispatch(action)]: the action reaches the sink either way; a throw of the
    sink is a throw of the call. *)
Definition call (dispatch : Sink) (action : JsVal) : M unit :=
  fun tr =>
    match dispatch tr action with
    | None => (Normal tt, tr ++ [Dispatch action])
    | Some e => (Throw e, tr ++ [Dispatch action])
    end.

(** [console.error(arg)] *)
Definition console_error (arg : JsVal) : M unit := emit (ConsoleError arg).

Definition when (c : bool) (m : M unit) : M unit := if c then m else ret tt.

Definition Promise_resolve (v : JsVal) : Promise := Resolved v.
Definition Promise_reject (e : JsVal) : Promise := Rejected e.

(** ** The module *)

(** The options object [{ endpoint, data, requiresAuth }]; a property that was
    left out reads as undefined. *)
Record Opts : Type := {
  endpoint : JsVal;
  data : JsVal;
  requiresAuth : JsVal
}.

Section HttpUtils.

Variable env : Env.

(** [handleError(dispatch, error, type)], a plain function: the value of the
    call is the promise its last statement returns. *)
Definition handleError (dispatch : Sink) (error type : JsVal) : M Promise :=
    when (String.eqb (getEnvironment env) "development") (
      console_error (VStr ("Error type: "
                           ++ to_string (number_toString env) type ++ ".")) ;;
      console_error error) ;;
    guard <- (if truthy error then get_prop error "response" else ret error) ;;
    errorMessage <- (if truthy guard
                     then (response <- get_prop error "response" ;;
                           get_prop response "data")
                     else ret error) ;;
    call dispatch (VObj [("type", type);
                         ("payload", errorMessage);
                         ("status", ERROR)]) ;;
    ret (Promise_reject errorMessage).

(** Lines 55 to 68: the argument array of the axios call. *)
Definition reqArgs (requestType : Verb) (opts : Opts) : list JsVal :=
  let reqArgs :=
    [VStr (API_URL env ++ "/"
           ++ to_string (number_toString env)
                (js_or (endpoint opts) (VStr "")))] in
  let reqArgs :=
    if verb_eqb requestType POST || verb_eqb requestType PUT
    then push reqArgs (js_or (data opts) (VObj []))
    else reqArgs in
  push reqArgs
    (if truthy (requiresAuth opts)
     then VObj [("headers", VObj [("Authorization", getCookie env "token")])]
     else VObj []).

(** [httpRequest(dispatch, requestType, actionType = '', opts)] *)
Definition httpRequest (dispatch : Sink) (requestType : Verb)
           (actionType : JsVal) (opts : Opts) : M Promise :=
  let actionType := default_param actionType (VStr "") in
  async (
    try_catch (
      call dispatch (VObj [("type", actionType);
                           ("meta", VObj [("status", PENDING)])]) ;;
      response <- await_axios env requestType (reqArgs requestType opts) ;;
      call dispatch (VObj [("type", actionType);
                           ("meta", VObj [("status", SUCCESS)]);
                           ("payload", resp_data response)]) ;;
      return_ (Promise_resolve (resp_data response)))
    (fun err => return_ (Promise_reject err))).

(** [post(dispatch, type, endpoint, data, requiresAuth)] *)
Definition post (dispatch : Sink) (type endpoint data requiresAuth : JsVal)
  : M Promise :=
  async (
    try_catch (
      results <- await (httpRequest dispatch POST type
                          {| endpoint := endpoint; data := data;
                             requiresAuth := requiresAuth |}) ;;
      return_ (Promise_resolve results))
    (fun err => p <- handleError dispatch err type ;; return_ p)).

(** [put(dispatch, type, endpoint, data, requiresAuth)] *)
Definition put (dispatch : Sink) (type endpoint data requiresAuth : JsVal)
  : M Promise :=
  async (
    try_catch (
      _ <- await (httpRequest dispatch PUT type
                    {| endpoint := endpoint; data := data;
                       requiresAuth := requiresAuth |}) ;;
      ret tt)
    (fun err => p <- handleError dispatch err type ;; return_ p)).

(** [get(dispatch, type, endpoint, requiresAuth)] *)
Definition get (dispatch : Sink) (type endpoint requiresAuth : JsVal)
  : M Promise :=
  async (
    try_catch (
      _ <- await (httpRequest dispatch GET type
                    {| endpoint := endpoint; data := VUndefined;
                       requiresAuth := requiresAuth |}) ;;
      ret tt)
    (fun err => p <- handleError dispatch err type ;; return_ p)).

(** [del(dispatch, type, endpoint, requiresAuth)] *)
Definition del (dispatch : Sink) (type endpoint requiresAuth : JsVal)
  : M Promise :=
  async (
    try_catch (
      _ <- await (httpRequest dispatch DELETE type
                    {| endpoint := endpoint; data := VUndefined;
                       requiresAuth := requiresAuth |}) ;;
      ret tt)
    (fun err => p <- handleError dispatch err type ;; return_ p)).

End HttpUtils.


(** ** Calls of the public interface *)

(** One invocation of a verb wrapper with its arguments; an argument that was
    not passed is undefined. *)
Inductive Call : Type :=
| CallGet (type endpoint requiresAuth : JsVal)
| CallPost (type endpoint data requiresAuth : JsVal)
| CallPut (type endpoint data requiresAuth : JsVal)
| CallDel (type endpoint requiresAuth : JsVal).

Definition invoke (dispatch : Sink) (env : Env) (c : Call) : M Promise :=
  match c with
  | CallGet type endpoint requiresAuth =>
      get env dispatch type endpoint requiresAuth
  | CallPost type endpoint data requiresAuth =>
      post env dispatch type endpoint data requiresAuth
  | CallPut type endpoint data requiresAuth =>
      put env dispatch type endpoint data requiresAuth
  | CallDel type endpoint requiresAuth =>
      del env dispatch type endpoint requiresAuth
  end.

Definition call_verb (c : Call) : Verb :=
  match c with
  | CallGet _ _ _ => GET
  | CallPost _ _ _ _ => POST
  | CallPut _ _ _ _ => PUT
  | CallDel _ _ _ => DELETE
  end.

Definition call_type (c : Call) : JsVal :=
  match c with
  | CallGet t _ _ | CallPost t _ _ _ | CallPut t _ _ _ | CallDel t _ _ => t
  end.

Definition call_opts (c : Call) : Opts :=
  match c with
  | CallGet _ e a | CallDel _ e a =>
      {| endpoint := e; data := VUndefined; requiresAuth := a |}
  | CallPost _ e d a | CallPut _ e d a =>
      {| endpoint := e; data := d; requiresAuth := a |}
  end.

(** How the transport settles the request this call sends. *)
Definition transport_outcome (env : Env) (c : Call) : Settled :=
  axios env (call_verb c) (reqArgs env (call_verb c) (call_opts c)).

(** What a wrapper resolves with when the dispatcher resolved with [body]. *)
Definition wrapper_value (c : Call) (body : JsVal) : JsVal :=
  match c with
  | CallPost _ _ _ _ => body
  | _ => VUndefined
  end.

(** ** Observations on a trace *)

(** The actions handed to [dispatch], oldest first, whether the sink returned
    or threw. *)
Fixpoint dispatched (tr : Trace) : list JsVal :=
  match tr with
  | [] => []
  | Dispatch a :: rest => a :: dispatched rest
  | _ :: rest => dispatched rest
  end.

(** The axios calls made, oldest first. *)
Fixpoint requests (tr : Trace) : list (Verb * list JsVal) :=
  match tr with
  | [] => []
  | AxiosCall v args :: rest => (v, args) :: requests rest
  | _ :: rest => requests rest
  end.

(** The effects of one run of the dispatcher, or of a wrapper, from a clean
    trace. *)
Definition effects_of {A} (m : M A) : Trace := snd (m []).

(** Total property read, for values already known not to be null or
    undefined: an absent property is undefined. *)
Definition prop (v : JsVal) (k : string) : JsVal :=
  match own_of k v with
  | Some x => x
  | None => VUndefined
  end.

(** The three literals the module dispatches. *)
Definition pending_action (type : JsVal) : JsVal :=
  VObj [("type", type); ("meta", VObj [("status", PENDING)])].
Definition success_action (type payload : JsVal) : JsVal :=
  VObj [("type", type); ("meta", VObj [("status", SUCCESS)]);
        ("payload", payload)].
Definition error_action (type payload : JsVal) : JsVal :=
  VObj [("type", type); ("payload", payload); ("status", ERROR)].

(** The value of [error && error.response ? error.response.data : error]. *)
Definition errorMessage_of (error : JsVal) : JsVal :=
  if truthy error && truthy (prop error "response")
  then prop (prop error "response") "data"
  else error.

(** The development-only console output of [handleError]. *)
Definition diagnostics (env : Env) (error type : JsVal) : Trace :=
  if String.eqb (getEnvironment env) "development"
  then [ConsoleError (VStr ("Error type: "
                            ++ to_string (number_toString env) type ++ "."));
        ConsoleError error]
  else [].

(** Lifecycle status as a consumer of the sink reads it. *)
Inductive Status : Type := StPending | StSuccess | StError.

Definition status_of_tag (v : JsVal) : option Status :=
  match v with
  | VStr s =>
      if String.eqb s "PENDING" then Some StPending
      else if String.eqb s "SUCCESS" then Some StSuccess
      else if String.eqb s "ERROR" then Some StError
      else None
  | _ => None
  end.

(** The status nested under [meta]. *)
Definition meta_status (action : JsVal) : option Status :=
  match own_of "meta" action with
  | Some meta =>
      match own_of "status" meta with
      | Some tag => status_of_tag tag
      | None => None
      end
  | None => None
  end.

(** The status at the top level of the action. *)
Definition top_status (action : JsVal) : option Status :=
  match own_of "status" action with
  | Some tag => status_of_tag tag
  | None => None
  end.

Definition has_own (k : string) (action : JsVal) : bool :=
  match own_of k action with
  | Some _ => true
  | None => false
  end.

(** A consumer that looks in both places. *)
Definition lifecycle (action : JsVal) : option Status :=
  match meta_status action with
  | Some s => Some s
  | None => top_status action
  end.

Definition status_eqb (a b : Status) : bool :=
  match a, b with
  | StPending, StPending | StSuccess, StSuccess | StError, StError => true
  | _, _ => false
  end.

(** ** Sinks *)

(** A sink that returns from every dispatch. *)
Definition quiet : Sink := fun _ _ => None.

(** A sink that throws [e] on the actions of status [s] and returns from the
    others. *)
Definition throws_on (s : Status) (e : JsVal) : Sink :=
  fun _ action =>
    match lifecycle action with
    | Some s' => if status_eqb s s' then Some e else None
    | None => None
    end.

(** The sink returns from every dispatch of an action of status [s]. *)
Definition returns_from (dispatch : Sink) (s : Status) : Prop :=
  forall tr action, lifecycle action = Some s -> dispatch tr action = None.

(** The request-state machine of the specification:
    IDLE -> PENDING -> SUCCESS | ERROR, both terminal. *)
Inductive Phase : Type := Idle | InFlight | Succeeded | Errored.

Definition phase_step (p : Phase) (s : Status) : option Phase :=
  match p, s with
  | Idle, StPending => Some InFlight
  | InFlight, StSuccess => Some Succeeded
  | InFlight, StError => Some Errored
  | _, _ => None
  end.

Fixpoint phase_run (p : Phase) (events : list (option Status)) : option Phase :=
  match events with
  | [] => Some p
  | Some s :: rest =>
      match phase_step p s with
      | Some p' => phase_run p' rest
      | None => None
      end
  | None :: _ => None
  end.



(** The two shapes an action can take: status nested under [meta] with no
    top-level [status], or [status] at the top level with no [meta]. *)
Definition nested_shape (s : Status) (action : JsVal) : Prop :=
  meta_status action = Some s /\ has_own "status" action = false.

Definition flat_shape (s : Status) (action : JsVal) : Prop :=
  top_status action = Some s /\ has_own "meta" action = false.

(** ** The outgoing request, read by axios's calling convention:
    [post] and [put] take (url, data, config), [get] and [delete] take
    (url, config) and would send [config.data] as a body. *)

Definition request_url (args : list JsVal) : option JsVal := nth_error args 0.

Definition request_config (verb : Verb) (args : list JsVal) : option JsVal :=
  match verb with
  | POST | PUT => nth_error args 2
  | GET | DELETE => nth_error args 1
  end.

Definition request_body (verb : Verb) (args : list JsVal) : option JsVal :=
  match verb with
  | POST | PUT => nth_error args 1
  | GET | DELETE =>
      match request_config verb args with
      | Some config => own_of "data" config
      | None => None
      end
  end.

Definition request_header (name : string) (verb : Verb) (args : list JsVal)
  : option JsVal :=
  match request_config verb args with
  | Some config =>
      match own_of "headers" config with
      | Some headers => own_of name headers
      | None => None
      end
  | None => None
  end.

(** The one axios call a run of the dispatcher makes once its PENDING dispatch
    has returned. *)
Definition outgoing (env : Env) (v : Verb) (t : JsVal) (o : Opts)
  : option (Verb * list JsVal) :=
  match requests (effects_of (httpRequest env quiet v t o)) with
  | [call] => Some call
  | _ => None
  end.

(** ** The specification's own wording, for comparison with the code *)



(** The POST/PUT payload as the specification words it: the supplied body, an
    empty object when the body is absent. *)
Definition spec_payload (body : JsVal) : JsVal :=
  match body with
  | VUndefined => VObj []
  | _ => body
  end.

(** ** Sample environments and values *)

Definition sample_env (mode : string) (outcome : Settled) : Env :=
  {| API_URL := "http://localhost:3000";
     getEnvironment := mode;
     getCookie := fun name =>
       if String.eqb name "token" then VStr "jwt-0123" else VUndefined;
     axios := fun _ _ => outcome;
     number_toString := fun n => NilZero.string_of_int (Z.to_int n) |}.

Definition user_body : JsVal := VObj [("id", VNum 1); ("name", VStr "A")].
Definition user_response : Response :=
  {| resp_data := user_body; resp_status := 200 |}.
Definition not_found : JsVal :=
  VObj [("response", VObj [("data", VStr "Not found"); ("status", VNum 404)])].
Definition render_failed : JsVal :=
  VObj [("message", VStr "Cannot read properties of undefined")].
Definition network_error : JsVal :=
  VObj [("message", VStr "Network Error")].
Definition fetch_user : Call :=
  CallGet (VStr "FETCH_USER") (VStr "user/1") (VBool true).

(** ** Running the functions *)

Lemma get_prop_truthy (v : JsVal) (k : string) (tr : Trace) :
  truthy v = true -> get_prop v k tr = (Normal (prop v k), tr).
Proof.
  destruct v; cbn; intros H; try discriminate; reflexivity.
Qed.

(** [handleError] throws nothing of its own: it logs in development, hands one
    ERROR action to the sink and, if the sink returns, returns a promise
    rejected with the message of that action; if the sink throws, so does
    the call. *)
Lemma handleError_run (dispatch : Sink) (env : Env) (error type : JsVal)
      (tr : Trace) :
  handleError env dispatch error type tr =
  let tr' := tr ++ diagnostics env error type in
  let action := error_action type (errorMessage_of error) in
  (match dispatch tr' action with
   | None => Normal (Rejected (errorMessage_of error))
   | Some e => Throw e
   end,
   tr' ++ [Dispatch action]).
Proof.
  unfold handleError, diagnostics, errorMessage_of, when, bind, console_error,
    call, emit, ret, Promise_reject, error_action.
  destruct (String.eqb (getEnvironment env) "development"); cbn;
    destruct (truthy error) eqn:He; cbn.
  all: try rewrite (get_prop_truthy _ _ _ He); cbn.
  all: try (destruct (truthy (prop error "response")) eqn:Hr; cbn;
            [ rewrite (get_prop_truthy _ _ _ He); cbn;
              rewrite (get_prop_truthy _ _ _ Hr); cbn | ]).
  all: rewrite ?He; cbn; rewrite ?app_nil_r; repeat rewrite <- app_assoc;
    cbn [app];
    match goal with
    | |- context [match ?d with Some _ => _ | None => _ end] => destruct d
    end;
    reflexivity.
Qed.

(** The dispatcher, for every sink: a throw of the PENDING dispatch rejects
    before any request; otherwise the axios call is made, a failure rejects
    with the raw error, and a success hands SUCCESS to the sink and resolves,
    unless the sink throws there, which rejects. *)
Lemma httpRequest_run (dispatch : Sink) (env : Env) (v : Verb) (t : JsVal)
      (o : Opts) (tr : Trace) :
  httpRequest env dispatch v t o tr =
  let t' := default_param t (VStr "") in
  let sent := tr ++ [Dispatch (pending_action t');
                     AxiosCall v (reqArgs env v o)] in
  match dispatch tr (pending_action t') with
  | Some e => (Normal (Rejected e), tr ++ [Dispatch (pending_action t')])
  | None =>
      match axios env v (reqArgs env v o) with
      | Fulfilled r =>
          (match dispatch sent (success_action t' (resp_data r)) with
           | None => Normal (Resolved (resp_data r))
           | Some e => Normal (Rejected e)
           end,
           sent ++ [Dispatch (success_action t' (resp_data r))])
      | Failed e => (Normal (Rejected e), sent)
      end
  end.
Proof.
  unfold httpRequest, async, try_catch, await_axios, bind, call, emit,
    return_, ret, throw, Promise_resolve, Promise_reject, pending_action,
    success_action.
  cbv zeta.
  destruct (dispatch tr _); [reflexivity|].
  destruct (axios env v (reqArgs env v o)); cbn;
    repeat rewrite <- app_assoc; cbn; [|reflexivity].
  match goal with
    | |- context [match ?d with Some _ => _ | None => _ end] => destruct d
    end;
    reflexivity.
Qed.

(** The dispatcher's promise always settles, and its trace extends the one it
    started from. *)
Lemma httpRequest_settles (dispatch : Sink) (env : Env) (v : Verb) (t : JsVal)
      (o : Opts) (tr : Trace) :
  exists p new, httpRequest env dispatch v t o tr = (Normal p, tr ++ new).
Proof.
  rewrite httpRequest_run; cbv zeta.
  destruct (dispatch tr _); [eexists _, _; reflexivity|].
  destruct (axios env v (reqArgs env v o)).
  - rewrite <- app_assoc.
    match goal with
    | |- context [match ?d with Some _ => _ | None => _ end] => destruct d
    end;
      eexists _, _; reflexivity.
  - eexists _, _; reflexivity.
Qed.

(** A wrapper whose dispatcher resolved: no further effect. *)
Lemma invoke_resolved (dispatch : Sink) (env : Env) (c : Call) (tr tr' : Trace)
      (body : JsVal) :
  httpRequest env dispatch (call_verb c) (call_type c) (call_opts c) tr =
    (Normal (Resolved body), tr') ->
  invoke dispatch env c tr = (Normal (Resolved (wrapper_value c body)), tr').
Proof.
  intros H.
  destruct c; cbn [invoke call_verb call_type call_opts wrapper_value] in *;
    unfold get, post, put, del, async, try_catch, await, bind;
    rewrite H; reflexivity.
Qed.

(** A wrapper whose dispatcher rejected: [handleError] runs on the rejection
    reason, and whatever it throws becomes the wrapper's rejection. *)
Lemma invoke_rejected (dispatch : Sink) (env : Env) (c : Call) (tr tr' : Trace)
      (err : JsVal) :
  httpRequest env dispatch (call_verb c) (call_type c) (call_opts c) tr =
    (Normal (Rejected err), tr') ->
  invoke dispatch env c tr =
  let logged := tr' ++ diagnostics env err (call_type c) in
  let action := error_action (call_type c) (errorMessage_of err) in
  (Normal (Rejected match dispatch logged action with
                    | None => errorMessage_of err
                    | Some e => e
                    end),
   logged ++ [Dispatch action]).
Proof.
  intros H.
  destruct c; cbn [invoke call_verb call_type call_opts] in *;
    unfold get, post, put, del, async, try_catch, await, bind;
    rewrite H; cbn [throw]; rewrite handleError_run; cbv zeta;
    match goal with
    | |- context [match ?d with Some _ => _ | None => _ end] => destruct d
    end;
    reflexivity.
Qed.

(** A wrapper, for every sink. *)
Lemma invoke_run (dispatch : Sink) (env : Env) (c : Call) (tr : Trace) :
  invoke dispatch env c tr =
  let type := call_type c in
  let t' := default_param type (VStr "") in
  let sent := tr ++ [Dispatch (pending_action t');
                     AxiosCall (call_verb c)
                       (reqArgs env (call_verb c) (call_opts c))] in
  let report from err :=
    let logged := from ++ diagnostics env err type in
    let action := error_action type (errorMessage_of err) in
    (Normal (Rejected match dispatch logged action with
                      | None => errorMessage_of err
                      | Some e => e
                      end),
     logged ++ [Dispatch action]) in
  match dispatch tr (pending_action t') with
  | Some e => report (tr ++ [Dispatch (pending_action t')]) e
  | None =>
      match transport_outcome env c with
      | Failed err => report sent err
      | Fulfilled r =>
          let success := success_action t' (resp_data r) in
          match dispatch sent success with
          | None => (Normal (Resolved (wrapper_value c (resp_data r))),
                     sent ++ [Dispatch success])
          | Some e => report (sent ++ [Dispatch success]) e
          end
      end
  end.
Proof.
  cbv zeta. unfold transport_outcome.
  pose proof (httpRequest_run dispatch env (call_verb c) (call_type c)
                (call_opts c) tr) as H.
  cbv zeta in H.
  destruct (dispatch tr _) eqn:Hp.
  - apply (invoke_rejected _ _ _ _ _ _ H).
  - destruct (axios env (call_verb c) _) eqn:Ha.
    + destruct (dispatch (tr ++ _) (success_action _ _)) eqn:Hs.
      * apply (invoke_rejected _ _ _ _ _ _ H).
      * apply (invoke_resolved _ _ _ _ _ _ H).
    + apply (invoke_rejected _ _ _ _ _ _ H).
Qed.

(** ** Traces *)

Lemma dispatched_app (a b : Trace) :
  dispatched (a ++ b) = (dispatched a ++ dispatched b)%list.
Proof.
  induction a as [|e a IH]; [reflexivity|].
  destruct e; cbn; rewrite IH; reflexivity.
Qed.

Lemma requests_app (a b : Trace) :
  requests (a ++ b) = (requests a ++ requests b)%list.
Proof.
  induction a as [|e a IH]; [reflexivity|].
  destruct e; cbn; rewrite IH; reflexivity.
Qed.

Lemma dispatched_diagnostics (env : Env) (error type : JsVal) :
  dispatched (diagnostics env error type) = [].
Proof.
  unfold diagnostics.
  destruct (String.eqb (getEnvironment env) "development"); reflexivity.
Qed.

Lemma requests_diagnostics (env : Env) (error type : JsVal) :
  requests (diagnostics env error type) = [].
Proof.
  unfold diagnostics.
  destruct (String.eqb (getEnvironment env) "development"); reflexivity.
Qed.

Ltac trace_simpl :=
  rewrite ?dispatched_app, ?requests_app, ?dispatched_diagnostics,
    ?requests_diagnostics;
  cbn [dispatched requests app];
  rewrite ?app_nil_r, <- ?app_assoc; cbn [app].

(** For every sink the dispatcher makes at most one axios call, the one built
    by [reqArgs], and makes it exactly when the PENDING dispatch returned. *)
Lemma httpRequest_requests (dispatch : Sink) (env : Env) (v : Verb) (t : JsVal)
      (o : Opts) (tr : Trace) :
  requests (snd (httpRequest env dispatch v t o tr)) =
  requests tr ++
    match dispatch tr (pending_action (default_param t (VStr ""))) with
    | None => [(v, reqArgs env v o)]
    | Some _ => []
    end.
Proof.
  rewrite httpRequest_run; cbv zeta.
  destruct (dispatch tr _); cbn [snd]; [trace_simpl; reflexivity|].
  destruct (axios env v (reqArgs env v o)); cbn [snd]; trace_simpl;
    reflexivity.
Qed.

(** The actions a wrapper hands to the sink, for every sink: PENDING first;
    then ERROR alone when that dispatch threw or the transport failed;
    otherwise SUCCESS, followed by ERROR when the SUCCESS dispatch threw. *)
Lemma invoke_dispatched (dispatch : Sink) (env : Env) (c : Call) (tr : Trace) :
  dispatched (snd (invoke dispatch env c tr)) =
  let type := call_type c in
  let t' := default_param type (VStr "") in
  let sent := tr ++ [Dispatch (pending_action t');
                     AxiosCall (call_verb c)
                       (reqArgs env (call_verb c) (call_opts c))] in
  dispatched tr ++
  pending_action t' ::
    match dispatch tr (pending_action t') with
    | Some e => [error_action type (errorMessage_of e)]
    | None =>
        match transport_outcome env c with
        | Failed err => [error_action type (errorMessage_of err)]
        | Fulfilled r =>
            success_action t' (resp_data r) ::
              match dispatch sent (success_action t' (resp_data r)) with
              | None => []
              | Some e => [error_action type (errorMessage_of e)]
              end
        end
    end.
Proof.
  rewrite invoke_run; cbv zeta.
  destruct (dispatch tr _); cbn [snd]; [trace_simpl; reflexivity|].
  destruct (transport_outcome env c); cbn [snd]; [|trace_simpl; reflexivity].
  destruct (dispatch (tr ++ _) _); cbn [snd]; trace_simpl; reflexivity.
Qed.

Lemma lifecycle_pending (t : JsVal) : lifecycle (pending_action t) = Some StPending.
Proof. reflexivity. Qed.

Lemma lifecycle_success (t p : JsVal) :
  lifecycle (success_action t p) = Some StSuccess.
Proof. reflexivity. Qed.



(** ** The request-state machine *)

(** The machine accepts only a PENDING followed by one terminal status. *)
Lemma phase_run_terminal (events : list (option Status)) (p : Phase) :
  phase_run Idle events = Some p ->
  p = Succeeded \/ p = Errored ->
  events = [Some StPending; Some StSuccess] /\ p = Succeeded \/
  events = [Some StPending; Some StError] /\ p = Errored.
Proof.
  intros Hrun Hp.
  destruct events as [|[[]|] [|[[]|] [|[[]|] rest]]]; cbn in Hrun;
    try discriminate;
    try (injection Hrun as <-; destruct Hp; try discriminate; auto; fail).
Qed.

Lemma shapes_exclusive (s s' : Status) (action : JsVal) :
  ~ (nested_shape s action /\ flat_shape s' action).
Proof.
  unfold nested_shape, flat_shape, meta_status, has_own.
  intros [[Hm _] [_ Hf]].
  destruct (own_of "meta" action); discriminate.
Qed.

(** ** Lifecycle of one invocation *)




(** C2, as the code has it: when the transport is reached and succeeds, the
    dispatcher dispatches PENDING and then a SUCCESS action whose payload is
    the body of the transport's response; its promise resolves with that same
    body when the caller's dispatch function returns from the SUCCESS
    dispatch, and rejects with what that function threw when it throws. *)
Theorem httpRequest_success (dispatch : Sink) (env : Env) (v : Verb)
        (t : JsVal) (o : Opts) (tr : Trace) (r : Response) :
  dispatch tr (pending_action (default_param t (VStr ""))) = None ->
  axios env v (reqArgs env v o) = Fulfilled r ->
  exists success,
    dispatched (snd (httpRequest env dispatch v t o tr)) =
      (dispatched tr ++
       [pending_action (default_param t (VStr "")); success])%list /\
    lifecycle success = Some StSuccess /\
    own_of "payload" success = Some (resp_data r) /\
    fst (httpRequest env dispatch v t o tr) =
      Normal
        match dispatch
                (tr ++ [Dispatch (pending_action (default_param t (VStr "")));
                        AxiosCall v (reqArgs env v o)]) success with
        | None => Resolved (resp_data r)
        | Some e => Rejected e
        end.
Proof.
  intros Hp H. rewrite httpRequest_run; cbv zeta. rewrite Hp, H.
  eexists. cbn [fst snd]. split; [trace_simpl; reflexivity|].
  split; [reflexivity|]. split; [reflexivity|].
  match goal with
  | |- context [match ?d with Some _ => _ | None => _ end] => destruct d
  end; reflexivity.
Qed.

Lemma httpRequest_success_witness :
  quiet [] (pending_action (default_param (VStr "FETCH_USER") (VStr ""))) =
    None /\
  axios (sample_env "production" (Fulfilled user_response)) GET
    (reqArgs (sample_env "production" (Fulfilled user_response)) GET
       (call_opts fetch_user)) = Fulfilled user_response /\
  exists success,
    dispatched (snd (httpRequest
                       (sample_env "production" (Fulfilled user_response))
                       quiet GET (VStr "FETCH_USER") (call_opts fetch_user)
                       [])) =
      (dispatched [] ++
       [pending_action (default_param (VStr "FETCH_USER") (VStr ""));
        success])%list /\
    lifecycle success = Some StSuccess /\
    own_of "payload" success = Some (resp_data user_response) /\
    fst (httpRequest (sample_env "production" (Fulfilled user_response))
           quiet GET (VStr "FETCH_USER") (call_opts fetch_user) []) =
      Normal
        match quiet
                ([] ++ [Dispatch (pending_action
                                    (default_param (VStr "FETCH_USER")
                                       (VStr "")));
                        AxiosCall GET
                          (reqArgs
                             (sample_env "production"
                                (Fulfilled user_response))
                             GET (call_opts fetch_user))]) success with
        | None => Resolved (resp_data user_response)
        | Some e => Rejected e
        end.
Proof.
  split; [reflexivity|]. split; [reflexivity|].
  apply (httpRequest_success quiet
           (sample_env "production" (Fulfilled user_response)) GET
           (VStr "FETCH_USER") (call_opts fetch_user) [] user_response);
    reflexivity.
Defined.

(** C2, as the specification words it, fails when the caller's dispatch
    function throws on the SUCCESS action: the transport succeeded and the
    SUCCESS action was dispatched with the response body, yet the
    dispatcher's promise rejects with the thrown value. *)
Lemma httpRequest_success_counterexample :
  axios (sample_env "production" (Fulfilled user_response)) GET
    (reqArgs (sample_env "production" (Fulfilled user_response)) GET
       (call_opts fetch_user)) = Fulfilled user_response /\
  httpRequest (sample_env "production" (Fulfilled user_response))
    (throws_on StSuccess render_failed) GET (VStr "FETCH_USER")
    (call_opts fetch_user) [] =
  (Normal (Rejected render_failed),
   [Dispatch (pending_action (VStr "FETCH_USER"));
    AxiosCall GET [VStr "http://localhost:3000/user/1";
                   VObj [("headers",
                          VObj [("Authorization", VStr "jwt-0123")])]];
    Dispatch (success_action (VStr "FETCH_USER") user_body)]) /\
  fst (httpRequest (sample_env "production" (Fulfilled user_response))
         (throws_on StSuccess render_failed) GET (VStr "FETCH_USER")
         (call_opts fetch_user) []) <>
  Normal (Resolved (resp_data user_response)).
Proof.
  split; [reflexivity|]. split; [reflexivity|].
  cbn. discriminate.
Qed.

(** ** The error reporter *)





(** ** The outgoing request *)

Lemma outgoing_reqArgs (env : Env) (v : Verb) (t : JsVal) (o : Opts) :
  outgoing env v t o = Some (v, reqArgs env v o).
Proof.
  unfold outgoing, effects_of. rewrite httpRequest_requests. reflexivity.
Qed.

(** Whatever the sink does, the axios calls of a run of the dispatcher are
    none, or the one [outgoing] names. *)
Lemma httpRequest_requests_outgoing (dispatch : Sink) (env : Env) (v : Verb)
      (t : JsVal) (o : Opts) (tr : Trace) :
  exists call,
    outgoing env v t o = Some call /\
    requests (snd (httpRequest env dispatch v t o tr)) =
    requests tr ++
      match dispatch tr (pending_action (default_param t (VStr ""))) with
      | None => [call]
      | Some _ => []
      end.
Proof.
  eexists. split; [apply outgoing_reqArgs|apply httpRequest_requests].
Qed.

Lemma reqArgs_url (env : Env) (v : Verb) (o : Opts) :
  request_url (reqArgs env v o) =
  Some (VStr (API_URL env ++ "/"
              ++ to_string (number_toString env)
                   (js_or (endpoint o) (VStr "")))).
Proof. unfold reqArgs; destruct v; reflexivity. Qed.

Lemma reqArgs_config (env : Env) (v : Verb) (o : Opts) :
  request_config v (reqArgs env v o) =
  Some (if truthy (requiresAuth o)
        then VObj [("headers", VObj [("Authorization", getCookie env "token")])]
        else VObj []).
Proof. unfold reqArgs; destruct v; reflexivity. Qed.

Lemma reqArgs_body (env : Env) (v : Verb) (o : Opts) :
  request_body v (reqArgs env v o) =
  match v with
  | POST | PUT => Some (js_or (data o) (VObj []))
  | GET | DELETE => None
  end.
Proof.
  destruct v; try reflexivity;
    unfold request_body; rewrite reqArgs_config;
    destruct (truthy (requiresAuth o)); reflexivity.
Qed.

Lemma falsy_inv (v : JsVal) :
  truthy v = false ->
  v = VUndefined \/ v = VNull \/ v = VBool false \/ v = VNum 0 \/ v = VNaN \/
  v = VStr "".
Proof.
  destruct v; cbn; intros H; try discriminate; auto 7.
  - destruct b; [discriminate|auto].
  - apply negb_false_iff, Z.eqb_eq in H. subst. auto 7.
  - apply negb_false_iff, String.eqb_eq in H. subst. auto 7.
Qed.

Lemma to_string_or_empty (render : Z -> string) (s : string) :
  to_string render (js_or (VStr s) (VStr "")) = s.
Proof.
  unfold js_or; cbn. destruct (String.eqb_spec s ""); cbn; congruence.
Qed.

(** C4, as the code has it: the dispatcher makes one axios call; for POST and
    PUT its payload is the supplied body when that body is truthy and an empty
    object when it is falsy (absent included); for GET and DELETE the call has
    no body, neither as an argument nor in its config. *)
Theorem httpRequest_body (env : Env) (v : Verb) (t : JsVal) (o : Opts) :
  exists args,
    outgoing env v t o = Some (v, args) /\
    request_body v args =
      match v with
      | POST | PUT => Some (if truthy (data o) then data o else VObj [])
      | GET | DELETE => None
      end /\
    List.length args = match v with POST | PUT => 3 | GET | DELETE => 2 end.
Proof.
  exists (reqArgs env v o). split; [apply outgoing_reqArgs|].
  split; [apply reqArgs_body|].
  unfold reqArgs; destruct v; reflexivity.
Qed.

(** C4, as the specification words it, fails for a supplied body that is
    falsy: [post] with the body 0 sends an empty object, not 0. *)
Lemma post_zero_body_counterexample :
  spec_payload (VNum 0) = VNum 0 /\
  requests (effects_of
    (invoke quiet (sample_env "production" (Fulfilled user_response))
       (CallPost (VStr "SET_COUNT") (VStr "count") (VNum 0) (VBool false)))) =
  [(POST, [VStr "http://localhost:3000/count"; VObj []; VObj []])] /\
  request_body POST [VStr "http://localhost:3000/count"; VObj []; VObj []] <>
  Some (spec_payload (VNum 0)).
Proof.
  split; [reflexivity|]. split; [reflexivity|].
  cbn. discriminate.
Qed.

(** C5: with [requiresAuth] true the config of the outgoing call is exactly
    one [headers] object holding [Authorization], whose value is what
    [getCookie('token')] gives at that call; with [requiresAuth] false or
    absent the config is the empty object, so no header at all. *)
Theorem httpRequest_authorization (env : Env) (v : Verb) (t e d : JsVal) :
  let opts a := {| endpoint := e; data := d; requiresAuth := a |} in
  (exists args,
     outgoing env v t (opts (VBool true)) = Some (v, args) /\
     request_config v args =
       Some (VObj [("headers",
                    VObj [("Authorization", getCookie env "token")])]) /\
     request_header "Authorization" v args = Some (getCookie env "token")) /\
  (exists args,
     outgoing env v t (opts (VBool false)) = Some (v, args) /\
     request_config v args = Some (VObj []) /\
     request_header "Authorization" v args = None) /\
  (exists args,
     outgoing env v t (opts VUndefined) = Some (v, args) /\
     request_config v args = Some (VObj []) /\
     request_header "Authorization" v args = None).
Proof.
  cbv zeta. repeat split.
  all: eexists; split; [apply outgoing_reqArgs|];
    unfold request_header; rewrite reqArgs_config; split; reflexivity.
Qed.

(** C8: for every verb and every endpoint string, the first argument of the
    outgoing call is the base URL, a slash and the endpoint, in that order;
    the empty endpoint gives the base URL followed by the slash. *)
Theorem httpRequest_url (env : Env) (v : Verb) (t d a : JsVal) (s : string) :
  let opts e := {| endpoint := VStr e; data := d; requiresAuth := a |} in
  (exists args,
     outgoing env v t (opts s) = Some (v, args) /\
     request_url args = Some (VStr (API_URL env ++ "/" ++ s))) /\
  (exists args,
     outgoing env v t (opts "") = Some (v, args) /\
     request_url args = Some (VStr (API_URL env ++ "/"))).
Proof.
  cbv zeta. split.
  - eexists; split; [apply outgoing_reqArgs|].
    rewrite reqArgs_url. cbn [endpoint]. rewrite to_string_or_empty.
    reflexivity.
  - eexists; split; [apply outgoing_reqArgs|].
    rewrite reqArgs_url. reflexivity.
Qed.

(** C10: for every falsy value, a POST or a PUT with that value as its body
    sends the empty object in its place, and a call of any verb with that
    value as its endpoint targets the base URL followed by the slash. *)
Theorem falsy_defaults (env : Env) (falsy : JsVal) :
  truthy falsy = false ->
  (forall t e a, exists args,
     outgoing env POST t {| endpoint := e; data := falsy; requiresAuth := a |}
       = Some (POST, args) /\
     request_body POST args = Some (VObj [])) /\
  (forall t e a, exists args,
     outgoing env PUT t {| endpoint := e; data := falsy; requiresAuth := a |}
       = Some (PUT, args) /\
     request_body PUT args = Some (VObj [])) /\
  (forall v t d a, exists args,
     outgoing env v t {| endpoint := falsy; data := d; requiresAuth := a |}
       = Some (v, args) /\
     request_url args = Some (VStr (API_URL env ++ "/"))).
Proof.
  intros H. repeat split.
  - eexists; split; [apply outgoing_reqArgs|].
    rewrite reqArgs_body. unfold js_or; cbn [data]. rewrite H. reflexivity.
  - eexists; split; [apply outgoing_reqArgs|].
    rewrite reqArgs_body. unfold js_or; cbn [data]. rewrite H. reflexivity.
  - eexists; split; [apply outgoing_reqArgs|].
    rewrite reqArgs_url. unfold js_or; cbn [endpoint]. rewrite H. reflexivity.
Qed.

Lemma falsy_defaults_witness :
  truthy (VNum 0) = false /\
  (forall t e a, exists args,
     outgoing (sample_env "production" (Fulfilled user_response)) POST t
       {| endpoint := e; data := VNum 0; requiresAuth := a |}
       = Some (POST, args) /\
     request_body POST args = Some (VObj [])) /\
  (forall t e a, exists args,
     outgoing (sample_env "production" (Fulfilled user_response)) PUT t
       {| endpoint := e; data := VNum 0; requiresAuth := a |}
       = Some (PUT, args) /\
     request_body PUT args = Some (VObj [])) /\
  (forall v t d a, exists args,
     outgoing (sample_env "production" (Fulfilled user_response)) v t
       {| endpoint := VNum 0; data := d; requiresAuth := a |}
       = Some (v, args) /\
     request_url args = Some (VStr "http://localhost:3000/")).
Proof.
  split; [reflexivity|].
  apply (falsy_defaults (sample_env "production" (Fulfilled user_response))
           (VNum 0)).
  reflexivity.
Defined.

(** ** What the promises settle with *)

(** C6: when the dispatcher's promise resolves, it resolves with the body of
    the response the transport succeeded with; [post] then resolves with that
    same value, while [get], [put] and [del] resolve with undefined. *)
Theorem wrappers_resolved_value (dispatch : Sink) (env : Env) (c : Call)
        (tr : Trace) (body : JsVal) :
  fst (httpRequest env dispatch (call_verb c) (call_type c) (call_opts c) tr) =
    Normal (Resolved body) ->
  (exists r, transport_outcome env c = Fulfilled r /\ body = resp_data r) /\
  fst (invoke dispatch env c tr) =
    Normal (Resolved match c with
                     | CallPost _ _ _ _ => body
                     | CallGet _ _ _ | CallPut _ _ _ _ | CallDel _ _ _ =>
                         VUndefined
                     end).
Proof.
  intros H. split.
  - rewrite httpRequest_run in H; cbv zeta in H. unfold transport_outcome.
    destruct (dispatch tr _); [discriminate|].
    destruct (axios env (call_verb c) _) as [r|e]; [|discriminate].
    exists r. split; [reflexivity|].
    cbn [fst] in H.
    destruct (dispatch (tr ++ _) _); [discriminate|]. congruence.
  - destruct (httpRequest env dispatch (call_verb c) (call_type c)
                (call_opts c) tr) as [res tr'] eqn:Hrun.
    cbn [fst] in H. subst res.
    rewrite (invoke_resolved _ _ _ _ _ _ Hrun). destruct c; reflexivity.
Qed.

Lemma wrappers_resolved_value_witness :
  fst (httpRequest (sample_env "production" (Fulfilled user_response)) quiet
         POST (VStr "ADD_USER")
         {| endpoint := VStr "user"; data := user_body;
            requiresAuth := VBool true |} []) =
    Normal (Resolved user_body) /\
  (exists r,
     transport_outcome (sample_env "production" (Fulfilled user_response))
       (CallPost (VStr "ADD_USER") (VStr "user") user_body (VBool true)) =
       Fulfilled r /\ user_body = resp_data r) /\
  fst (post (sample_env "production" (Fulfilled user_response)) quiet
         (VStr "ADD_USER") (VStr "user") user_body (VBool true) []) =
    Normal (Resolved user_body).
Proof.
  split; [reflexivity|].
  apply (wrappers_resolved_value quiet
           (sample_env "production" (Fulfilled user_response))
           (CallPost (VStr "ADD_USER") (VStr "user") user_body (VBool true))
           [] user_body).
  reflexivity.
Defined.

(** C7: when the transport is reached and fails, the dispatcher's promise
    rejects with the very error the transport failed with, and the
    dispatcher's only effects are the PENDING dispatch and the axios call: it
    dispatches no ERROR action and logs nothing.  The ERROR action comes from
    the wrapper: what a wrapper around that call does is what the dispatcher
    did followed by [handleError] on the dispatcher's rejection, which hands
    the ERROR action to the dispatch function. *)
Theorem httpRequest_failure (dispatch : Sink) (env : Env) (v : Verb)
        (t : JsVal) (o : Opts) (tr : Trace) (err : JsVal) :
  dispatch tr (pending_action (default_param t (VStr ""))) = None ->
  axios env v (reqArgs env v o) = Failed err ->
  fst (httpRequest env dispatch v t o tr) = Normal (Rejected err) /\
  snd (httpRequest env dispatch v t o tr) =
    tr ++ [Dispatch (pending_action (default_param t (VStr "")));
           AxiosCall v (reqArgs env v o)] /\
  map lifecycle (dispatched (snd (httpRequest env dispatch v t o tr))) =
    map lifecycle (dispatched tr) ++ [Some StPending] /\
  (forall c,
     call_verb c = v -> call_type c = t -> call_opts c = o ->
     snd (invoke dispatch env c tr) =
       snd (handleError env dispatch err t
              (snd (httpRequest env dispatch v t o tr))) /\
     dispatched (snd (invoke dispatch env c tr)) =
       dispatched tr ++
       [pending_action (default_param t (VStr ""));
        error_action t (errorMessage_of err)] /\
     map lifecycle (dispatched (snd (invoke dispatch env c tr))) =
       map lifecycle (dispatched tr) ++ [Some StPending; Some StError]).
Proof.
  intros Hp H.
  pose proof (httpRequest_run dispatch env v t o tr) as Hrun.
  cbv zeta in Hrun. rewrite Hp, H in Hrun. rewrite Hrun. cbn [fst snd].
  split; [reflexivity|]. split; [reflexivity|].
  split; [trace_simpl; rewrite map_app; reflexivity|].
  intros c <- <- <-.
  rewrite (invoke_rejected _ _ _ _ _ _ Hrun); cbv zeta.
  rewrite handleError_run; cbv zeta. cbn [snd].
  split; [reflexivity|].
  split; trace_simpl; rewrite ?map_app; reflexivity.
Qed.

Lemma httpRequest_failure_witness :
  quiet [] (pending_action (default_param (VStr "FETCH_USER") (VStr ""))) =
    None /\
  axios (sample_env "development" (Failed not_found)) GET
    (reqArgs (sample_env "development" (Failed not_found)) GET
       (call_opts fetch_user)) = Failed not_found /\
  fst (httpRequest (sample_env "development" (Failed not_found)) quiet GET
         (VStr "FETCH_USER") (call_opts fetch_user) []) =
    Normal (Rejected not_found) /\
  snd (httpRequest (sample_env "development" (Failed not_found)) quiet GET
         (VStr "FETCH_USER") (call_opts fetch_user) []) =
    [Dispatch (pending_action (VStr "FETCH_USER"));
     AxiosCall GET
       [VStr "http://localhost:3000/user/1";
        VObj [("headers", VObj [("Authorization", VStr "jwt-0123")])]]] /\
  snd (invoke quiet (sample_env "development" (Failed not_found)) fetch_user
         []) =
    snd (handleError (sample_env "development" (Failed not_found)) quiet
           not_found (VStr "FETCH_USER")
           (snd (httpRequest (sample_env "development" (Failed not_found))
                   quiet GET (VStr "FETCH_USER") (call_opts fetch_user) []))) /\
  dispatched
    (snd (invoke quiet (sample_env "development" (Failed not_found))
            fetch_user [])) =
    [pending_action (VStr "FETCH_USER");
     error_action (VStr "FETCH_USER") (VStr "Not found")].
Proof.
  split; [reflexivity|]. split; [reflexivity|].
  destruct (httpRequest_failure quiet
              (sample_env "development" (Failed not_found)) GET
              (VStr "FETCH_USER") (call_opts fetch_user) [] not_found
              eq_refl eq_refl) as (Hfst & Hsnd & _ & Hwrap).
  destruct (Hwrap fetch_user eq_refl eq_refl eq_refl) as (Hvia & Hsent & _).
  split; [exact Hfst|]. split; [exact Hsnd|].
  split; [exact Hvia|exact Hsent].
Defined.

(** ** The shape of the dispatched actions *)

Lemma nested_success (t p : JsVal) :
  nested_shape StSuccess (success_action t p).
Proof. split; reflexivity. Qed.

Lemma flat_error (t p : JsVal) : flat_shape StError (error_action t p).
Proof. split; reflexivity. Qed.

Ltac terminal_shapes :=
  repeat first
    [ apply Forall_nil
    | apply Forall_cons;
      [ first [ left; apply nested_success | right; apply flat_error ] | ] ].

(** C9: whatever the caller's dispatch function does, the first action of an
    invocation is a PENDING one and every later one is a SUCCESS or an ERROR
    one; PENDING and SUCCESS carry their status under [meta] and have no
    top-level [status], while ERROR carries [status] at the top level and has
    no [meta].  When the dispatch function returns from the PENDING and
    SUCCESS dispatches there is exactly one later action, SUCCESS-shaped when
    the transport succeeded and ERROR-shaped when it failed.  No action has
    both shapes. *)
Theorem action_shapes (dispatch : Sink) (env : Env) (c : Call) (tr : Trace) :
  (exists pending rest,
     dispatched (snd (invoke dispatch env c tr)) =
       dispatched tr ++ pending :: rest /\
     nested_shape StPending pending /\
     Forall (fun action =>
               nested_shape StSuccess action \/ flat_shape StError action)
       rest /\
     (returns_from dispatch StPending ->
      returns_from dispatch StSuccess ->
      exists terminal,
        rest = [terminal] /\
        match transport_outcome env c with
        | Fulfilled _ => nested_shape StSuccess terminal
        | Failed _ => flat_shape StError terminal
        end)) /\
  (forall s s' action, ~ (nested_shape s action /\ flat_shape s' action)).
Proof.
  split; [|apply shapes_exclusive].
  eexists _, _. split; [rewrite invoke_dispatched; cbv zeta; reflexivity|].
  split; [split; reflexivity|]. split.
  - destruct (dispatch tr _).
    + terminal_shapes.
    + destruct (transport_outcome env c).
      * destruct (dispatch (tr ++ _) _); terminal_shapes.
      * terminal_shapes.
  - intros Hp Hs. rewrite (Hp _ _ (lifecycle_pending _)).
    destruct (transport_outcome env c).
    + rewrite (Hs _ _ (lifecycle_success _ _)).
      eexists. split; [reflexivity|]. split; reflexivity.
    + eexists. split; [reflexivity|]. split; reflexivity.
Qed.

(** ** Further properties of the error reporter *)

(** X1: called with a string action type, [handleError] logs, in a development
    environment only, the line naming the action type and then the raw error,
    both before its single ERROR dispatch; in any other environment the
    dispatch is its only effect. *)
Theorem handleError_diagnostics (dispatch : Sink) (env : Env) (error : JsVal)
        (s : string) (tr : Trace) :
  exists payload,
    snd (handleError env dispatch error (VStr s) tr) =
    tr ++ (if String.eqb (getEnvironment env) "development"
           then [ConsoleError (VStr ("Error type: " ++ s ++ "."));
                 ConsoleError error]
           else [])
       ++ [Dispatch (error_action (VStr s) payload)].
Proof.
  exists (errorMessage_of error). rewrite handleError_run; cbv zeta.
  cbn [snd]. rewrite <- app_assoc. reflexivity.
Qed.





(** ** Further properties of the wrappers *)




Ltac each_action :=
  repeat first [ apply Forall_nil | apply Forall_cons; [ | ] ];
  try reflexivity; auto.



(** X6: when the action type passed to a wrapper is undefined, the
    dispatcher's default makes the PENDING and SUCCESS actions carry the empty
    string as their type, while every ERROR action carries undefined,
    whatever the caller's dispatch function does.  When that function returns
    from the PENDING and SUCCESS dispatches, the one action after PENDING has
    the empty string on a success and undefined on a failure, so the two
    actions of a failed call disagree on their type. *)
Theorem wrapper_undefined_type (dispatch : Sink) (env : Env) (c : Call)
        (tr : Trace) :
  call_type c = VUndefined ->
  exists pending rest,
    dispatched (snd (invoke dispatch env c tr)) =
      dispatched tr ++ pending :: rest /\
    own_of "type" pending = Some (VStr "") /\
    Forall (fun action =>
              lifecycle action = Some StSuccess /\
              own_of "type" action = Some (VStr "") \/
              lifecycle action = Some StError /\
              own_of "type" action = Some VUndefined) rest /\
    (returns_from dispatch StPending ->
     returns_from dispatch StSuccess ->
     exists terminal,
       rest = [terminal] /\
       own_of "type" terminal =
         Some match transport_outcome env c with
              | Fulfilled _ => VStr ""
              | Failed _ => VUndefined
              end).
Proof.
  intros Ht.
  eexists _, _. split; [rewrite invoke_dispatched; cbv zeta; reflexivity|].
  rewrite Ht. split; [reflexivity|]. split.
  - destruct (dispatch tr _); [each_action|].
    destruct (transport_outcome env c); [|each_action].
    destruct (dispatch (tr ++ _) _); each_action.
  - intros Hp Hs. cbn [default_param].
    rewrite (Hp _ _ (lifecycle_pending _)).
    destruct (transport_outcome env c);
      [|eexists; split; reflexivity].
    rewrite (Hs _ _ (lifecycle_success _ _)). eexists; split; reflexivity.
Qed.

Lemma wrapper_undefined_type_witness :
  call_type (CallDel VUndefined (VStr "user/1") (VBool true)) = VUndefined /\
  exists pending rest,
    dispatched (snd (invoke quiet
                       (sample_env "production" (Failed network_error))
                       (CallDel VUndefined (VStr "user/1") (VBool true)) [])) =
      dispatched [] ++ pending :: rest /\
    own_of "type" pending = Some (VStr "") /\
    Forall (fun action =>
              lifecycle action = Some StSuccess /\
              own_of "type" action = Some (VStr "") \/
              lifecycle action = Some StError /\
              own_of "type" action = Some VUndefined) rest /\
    (returns_from quiet StPending ->
     returns_from quiet StSuccess ->
     exists terminal,
       rest = [terminal] /\
       own_of "type" terminal =
         Some match transport_outcome
                      (sample_env "production" (Failed network_error))
                      (CallDel VUndefined (VStr "user/1") (VBool true)) with
              | Fulfilled _ => VStr ""
              | Failed _ => VUndefined
              end).
Proof.
  split; [reflexivity|].
  apply (wrapper_undefined_type quiet
           (sample_env "production" (Failed network_error))
           (CallDel VUndefined (VStr "user/1") (VBool true)) []).
  reflexivity.
Defined.



(** X9: the Authorization header follows the truthiness of [requiresAuth],
    not its being the boolean true: every truthy value attaches the header
    with the cookie token, every falsy value gives the empty config; the
    string 'false', being truthy, attaches the header. *)
Theorem requiresAuth_truthiness (env : Env) (v : Verb) (t e d a : JsVal) :
  let opts x := {| endpoint := e; data := d; requiresAuth := x |} in
  (exists args,
     outgoing env v t (opts a) = Some (v, args) /\
     request_config v args =
       Some (if truthy a
             then VObj [("headers",
                         VObj [("Authorization", getCookie env "token")])]
             else VObj [])) /\
  (exists args,
     outgoing env v t (opts (VStr "false")) = Some (v, args) /\
     request_header "Authorization" v args = Some (getCookie env "token")).
Proof.
  cbv zeta. split.
  - eexists; split; [apply outgoing_reqArgs|]. apply reqArgs_config.
  - eexists; split; [apply outgoing_reqArgs|].
    unfold request_header. rewrite reqArgs_config. reflexivity.
Qed.
